(** * SLDEMO: the sea-level notebooks, cell by cell

    The two notebooks of the repository are straight-line glue around
    [intake], [gcsfs], [xarray] and [momlevel].  This development embeds
    the cells the notebooks own: the catalog queries, the store loading
    loop, the wet mask of cell 12 and the argument list of the
    [momlevel.steric] call.  The library routines the notebooks call
    without fixing their behaviour stay section variables. *)

From Stdlib Require Import ZArith List Lia.
From Stdlib Require Import Floats.SpecFloat.
From stdpp Require Import gmap strings list fin_maps.

Open Scope Z_scope.

(** ** Python outcomes *)

Module Py.

Inductive exn :=
| AttributeError
| IndexError
| ValueError
| LibraryError (what : string).

Inductive result (A : Type) :=
| Ok (a : A)
| Raise (e : exn).
Arguments Ok {A} a.
Arguments Raise {A} e.

Definition bind {A B} (r : result A) (k : A -> result B) : result B :=
  match r with
  | Ok a => k a
  | Raise e => Raise e
  end.

Notation "'let*' x ':=' r 'in' k" := (bind r (fun x => k))
  (at level 10, x name, r at level 100, k at level 200).

(** A list comprehension [[f(x) for x in xs]]: left to right, the first
    exception ends it. *)
Fixpoint comprehension {A B} (f : A -> result B) (xs : list A) : result (list B) :=
  match xs with
  | [] => Ok []
  | x :: xs' =>
      let* y := f x in
      let* ys := comprehension f xs' in
      Ok (y :: ys)
  end.

(** Values that appear as keyword arguments in the notebooks. *)
Inductive pyobj :=
| Str (s : string)
| StrList (l : list string)
| StrDict (d : list (string * string)).

(** [seq[i]] for an integer [i]: negative indices count from the end. *)
Definition getitem {A} (i : Z) (l : list A) : result A :=
  let n := Z.of_nat (length l) in
  let j := if i <? 0 then i + n else i in
  if (j <? 0) || (n <=? j) then Raise IndexError
  else match l !! Z.to_nat j with
       | Some x => Ok x
       | None => Raise IndexError
       end.

(** One bound of [slice(start, stop)] against a length, step 1. *)
Definition adjust (len dflt : Z) (b : option Z) : Z :=
  match b with
  | None => dflt
  | Some i => if i <? 0 then Z.max 0 (i + len) else Z.min i len
  end.

Definition slice_indices (start stop : option Z) (len : Z) : Z * Z :=
  (adjust len 0 start, adjust len len stop).

(** [seq[start:stop]] *)
Definition getslice {A} (start stop : option Z) (l : list A) : list A :=
  let '(lo, hi) := slice_indices start stop (Z.of_nat (length l)) in
  firstn (Z.to_nat (hi - lo)) (skipn (Z.to_nat lo) l).

End Py.

Import Py.

(** ** float64 cells *)

Definition f64 := spec_float.

Definition f64_0_0 : f64 := S754_zero false.
Definition f64_1_0 : f64 := Eval cbv in SFone 53 1024.

Definition isnan (v : f64) : bool :=
  match v with
  | S754_nan => true
  | _ => false
  end.

(** ** Labelled arrays *)

(** Array contents, one [Axis] per dimension, outermost first. *)
#[warnings="-register-all"]
Inductive ndarray (A : Type) :=
| Scalar (v : A)
| Axis (items : list (ndarray A)).
Arguments Scalar {A} v.
Arguments Axis {A} items.

Fixpoint nd_map {A B} (f : A -> B) (a : ndarray A) : ndarray B :=
  match a with
  | Scalar v => Scalar (f v)
  | Axis items => Axis (map (nd_map f) items)
  end.

(** The cell at a full index, one position per dimension. *)
Fixpoint cell {A} (idx : list nat) (a : ndarray A) : option A :=
  match idx, a with
  | [], Scalar v => Some v
  | i :: idx', Axis items =>
      match items !! i with
      | Some sub => cell idx' sub
      | None => None
      end
  | _, _ => None
  end.

(** Integer selection along the axis at depth [k]; that axis disappears. *)
Fixpoint index_axis {A} (k : nat) (i : Z) (a : ndarray A) : result (ndarray A) :=
  match a with
  | Scalar _ => Raise IndexError
  | Axis items =>
      match k with
      | O => getitem i items
      | S k' =>
          let* items' := comprehension (index_axis k' i) items in
          Ok (Axis items')
      end
  end.

(** A transformation of the axis at depth [k]; the other axes stay. *)
Fixpoint at_depth {A} (k : nat) (f : list (ndarray A) -> list (ndarray A))
    (a : ndarray A) : ndarray A :=
  match a with
  | Scalar v => Scalar v
  | Axis items =>
      match k with
      | O => Axis (f items)
      | S k' => Axis (map (at_depth k' f) items)
      end
  end.

Record DataArray (A : Type) := {
  dims : list string;
  values : ndarray A
}.
Arguments dims {A} d.
Arguments values {A} d.

Fixpoint index_of (d : string) (ds : list string) : option nat :=
  match ds with
  | [] => None
  | d' :: rest =>
      if String.eqb d d' then Some O
      else option_map S (index_of d rest)
  end.

Fixpoint drop_nth {A} (k : nat) (l : list A) : list A :=
  match k, l with
  | _, [] => []
  | O, _ :: rest => rest
  | S k', x :: rest => x :: drop_nth k' rest
  end.

(** [da.isel(dim=i)] *)
Definition da_isel_int {A} (d : string) (i : Z) (da : DataArray A)
    : result (DataArray A) :=
  match index_of d (dims da) with
  | None => Raise ValueError
  | Some k =>
      let* v := index_axis k i (values da) in
      Ok {| dims := drop_nth k (dims da); values := v |}
  end.

(** [da.isnull()] *)
Definition da_isnull (da : DataArray f64) : DataArray bool :=
  {| dims := dims da; values := nd_map isnan (values da) |}.

(** [xr.where(cond, x, y)] with scalar [x] and [y] *)
Definition xr_where {A} (cond : DataArray bool) (x y : A) : DataArray A :=
  {| dims := dims cond;
     values := nd_map (fun c : bool => if c then x else y) (values cond) |}.

(** [da.isel(dim=slice(start, stop))]; an array without the dimension
    is left as it is. *)
Definition da_isel_slice {A} (d : string) (start stop : option Z)
    (da : DataArray A) : DataArray A :=
  match index_of d (dims da) with
  | None => da
  | Some k =>
      {| dims := dims da;
         values := at_depth k (getslice start stop) (values da) |}
  end.

(** A dataset: variable name to array.  Coordinates are entries too. *)
Abbreviation Dataset := (gmap string (DataArray f64)).

(** [ds.name] *)
Definition ds_getattr (name : string) (ds : Dataset) : result (DataArray f64) :=
  match ds !! name with
  | Some da => Ok da
  | None => Raise AttributeError
  end.

Definition has_dim (d : string) (ds : Dataset) : bool :=
  bool_decide (map_Exists (fun _ da => d ∈ dims da) ds).

(** [ds.isel(dim=slice(start, stop))]: a dimension no variable has is an
    error. *)
Definition ds_isel_slice (d : string) (start stop : option Z) (ds : Dataset)
    : result Dataset :=
  if has_dim d ds then Ok (da_isel_slice d start stop <$> ds)
  else Raise ValueError.

(** ** Cell 12: the wet mask

    [ds["wet"] = xr.where(ds.zos.isel(time=0).isnull(), 0.0, 1.0)] *)
Definition define_wet (ds : Dataset) : result Dataset :=
  let* zos := ds_getattr "zos" ds in
  let* zos0 := da_isel_int "time" 0 zos in
  Ok (<["wet" := xr_where (da_isnull zos0) f64_0_0 f64_1_0]> ds).

(** Position [j] put in front of place [k] of an index. *)
Definition insert_at (k j : nat) (idx : list nat) : list nat :=
  firstn k idx ++ j :: skipn k idx.

(** What [xr.where(..., 0.0, 1.0)] leaves in a cell that held [z]. *)
Definition wet_of (z : f64) : f64 := if isnan z then f64_0_0 else f64_1_0.

(** ** Cell 26: the arguments of [momlevel.steric]

    [momlevel.steric(ds.isel(time=slice(-360, None)), domain="global",
                     coord_names={"z": "lev"})] *)
Definition steric_kwargs : list (string * pyobj) :=
  [("domain", Str "global"); ("coord_names", StrDict [("z", "lev")])].

Definition steric_args (ds : Dataset) : result (Dataset * list (string * pyobj)) :=
  let* window := ds_isel_slice "time" (Some (-360)) None ds in
  Ok (window, steric_kwargs).

(** The last [n] entries of an axis, all of them when there are fewer. *)
Definition last_n {A} (n : nat) (steps : list A) : list A :=
  skipn (length steps - n) steps.

(** An array with [f] applied along its time axis, if it has one. *)
Definition on_time_axis {A} (f : list (ndarray A) -> list (ndarray A))
    (da : DataArray A) : DataArray A :=
  match index_of "time" (dims da) with
  | None => da
  | Some k => {| dims := dims da; values := at_depth k f (values da) |}
  end.

(** ** The catalog and the stores *)

Record row := {
  experiment_id : string;
  table_id : string;
  variable_id : string;
  grid_label : string;
  member_id : string;
  source_id : string;
  zstore : string
}.

Record GCSFileSystem := { token : string; access : string }.

Inductive store :=
| GCSMap (fs : GCSFileSystem) (root : string)
| Url (url : string).

(** Cell 11 *)
Definition zos_query : list (string * pyobj) :=
  [("experiment_id", StrList ["historical"]);
   ("table_id", StrList ["Ofx"; "Omon"]);
   ("variable_id", StrList ["areacello"; "zos"]);
   ("grid_label", Str "gn");
   ("member_id", Str "r1i1p1f1");
   ("source_id", Str "GFDL-ESM4")].

(** Cell 24 *)
Definition steric_query : list (string * pyobj) :=
  [("experiment_id", StrList ["historical"]);
   ("table_id", StrList ["Ofx"; "Omon"]);
   ("variable_id", StrList ["volcello"; "thetao"; "so"; "areacello"]);
   ("grid_label", Str "gn");
   ("member_id", Str "r1i1p1f1");
   ("source_id", Str "GFDL-ESM4")].

Definition deptho_url : string :=
  "https://extranet.gfdl.noaa.gov/~John.Krasting/models/GFDL-ESM4/deptho".

Definition f64_75_0 : f64 := Eval cbv in binary_normalize 53 1024 75 0 false.

Section Notebook.

(** The routines of [intake], [xarray] and [momlevel] that the
    notebooks call; nothing in the repository says what they compute. *)
Variable Catalog : Type.
Variable search : Catalog -> list (string * pyobj) -> result (list row).
Variable open_zarr : store -> option bool -> result Dataset.
Variable merge : list Dataset -> result Dataset.
Variable weighted_mean :
  DataArray f64 -> DataArray f64 -> list string -> result (DataArray f64).
Variable annual_average : DataArray f64 -> result (DataArray f64).
Variable extract_tidegauge :
  DataArray f64 -> DataArray f64 -> DataArray f64 -> DataArray f64 -> f64 ->
  result Dataset.
Variable steric : Dataset -> list (string * pyobj) -> result (list Dataset).

Definition cell_11 (col : Catalog) : result (list row) := search col zos_query.

Definition cell_24 (col : Catalog) : result (list row) := search col steric_query.

(** The loading idiom of cells 12 and 25. *)
Definition load_stores (df : list row) : result Dataset :=
  let fs := {| token := "anon"; access := "read_only" |} in
  let zstores := map zstore df in
  let mappers := map (GCSMap fs) zstores in
  let* ds := comprehension (fun x => open_zarr x (Some true)) mappers in
  merge ds.

Definition cell_12 (df : list row) : result Dataset :=
  let* ds := load_stores df in
  define_wet ds.

Definition cell_16 (ds : Dataset) : result Dataset :=
  let* zos := ds_getattr "zos" ds in
  let* lon := ds_getattr "lon" ds in
  let* lat := ds_getattr "lat" ds in
  let* wet := ds_getattr "wet" ds in
  extract_tidegauge zos lon lat wet f64_75_0.

Definition cell_19 (ds : Dataset) : result (DataArray f64 * DataArray f64) :=
  let* zos := ds_getattr "zos" ds in
  let* areacello := ds_getattr "areacello" ds in
  let* ssh_global_monthly := weighted_mean zos areacello ["y"; "x"] in
  let* ssh_global_annual := annual_average ssh_global_monthly in
  Ok (ssh_global_monthly, ssh_global_annual).

Definition cell_25 (df : list row) : result Dataset :=
  let* ds := load_stores df in
  let* extra := open_zarr (Url deptho_url) None in
  let* deptho := ds_getattr "deptho" extra in
  Ok (<["deptho" := deptho]> ds).

Definition cell_26 (ds : Dataset) : result (DataArray f64) :=
  let* args := steric_args ds in
  let* out := steric (fst args) (snd args) in
  let* first := getitem 0 out in
  ds_getattr "steric" first.

End Notebook.

(** ** Cell 13: the field drawn beside the cell areas

    [ds.zos.isel(time=-1)] *)
Definition cell_13_field (ds : Dataset) : result (DataArray f64) :=
  let* zos := ds_getattr "zos" ds in
  da_isel_int "time" (-1) zos.

(** ** Cell 17: the anomaly of a tide-gauge series

    [data = data - data[0]], for [data] as the selection of the line
    above left it. *)

Definition zip_result {A B C} (g : A -> B -> result C)
    : list A -> list B -> result (list C) :=
  fix go xs ys :=
    match xs, ys with
    | [], [] => Ok []
    | x :: xs', y :: ys' =>
        let* z := g x y in
        let* zs := go xs' ys' in
        Ok (z :: zs)
    | _, _ => Raise ValueError
    end.

(** Cell by cell over two arrays of one shape. *)
Fixpoint nd_zip {A B C} (f : A -> B -> C) (a : ndarray A) (b : ndarray B)
    : result (ndarray C) :=
  match a, b with
  | Scalar x, Scalar y => Ok (Scalar (f x y))
  | Axis xs, Axis ys =>
      let* zs := zip_result (nd_zip f) xs ys in
      Ok (Axis zs)
  | _, _ => Raise ValueError
  end.

(** [da[i]]: integer selection along the first dimension. *)
Definition da_getitem {A} (i : Z) (da : DataArray A) : result (DataArray A) :=
  let* v := index_axis 0 i (values da) in
  Ok {| dims := tail (dims da); values := v |}.

(** [a - b] for [b] over the dimensions of [a] but the first: [b] is
    taken from every entry of [a] along that dimension, in the float
    format [prec], [emax] of the data. *)
Definition da_sub_each (prec emax : Z) (a b : DataArray f64)
    : result (DataArray f64) :=
  match values a with
  | Scalar _ => Raise ValueError
  | Axis items =>
      let* items' :=
        comprehension (fun it => nd_zip (SFsub prec emax) it (values b)) items in
      Ok {| dims := dims a; values := Axis items' |}
  end.

Definition anomaly (prec emax : Z) (data : DataArray f64) : result (DataArray f64) :=
  let* first := da_getitem 0 data in
  da_sub_each prec emax data first.

Section TideGaugeSeries.

Variable annual_average : DataArray f64 -> result (DataArray f64).

(** The second and third statements of cell 17. *)
Definition cell_17_series (prec emax : Z) (data : DataArray f64)
    : result (DataArray f64 * DataArray f64) :=
  let* data := anomaly prec emax data in
  let* data_annual := annual_average data in
  Ok (data, data_annual).

End TideGaugeSeries.

(** Two cells combined, when both are there. *)
Definition zip_cells {A B C} (f : A -> B -> C) (x : option A) (y : option B)
    : option C :=
  match x, y with
  | Some x, Some y => Some (f x y)
  | _, _ => None
  end.

(** A float that is a number: a zero or a finite value. *)
Definition is_number (v : f64) : bool :=
  match v with
  | S754_zero _ | S754_finite _ _ _ => true
  | _ => false
  end.

(** The mapper the loading loop builds for a catalog row. *)
Definition mapper_of (r : row) : store :=
  GCSMap {| token := "anon"; access := "read_only" |} (zstore r).

(** ** Sample datasets *)

(** Two time steps over a 1 x 2 grid: the first point is land, the
    second is wet at the first step and missing at the second. *)
Definition ex_zos : DataArray f64 :=
  {| dims := ["time"; "y"; "x"];
     values := Axis [Axis [Axis [Scalar S754_nan; Scalar f64_1_0]];
                     Axis [Axis [Scalar S754_nan; Scalar S754_nan]]] |}.

Definition ex_ds : Dataset := {["zos" := ex_zos]}.

Definition ex_wet : DataArray f64 :=
  {| dims := ["y"; "x"]; values := Axis [Axis [Scalar f64_0_0; Scalar f64_1_0]] |}.

(** Two time steps of a profile, next to a static field. *)
Definition ex_thetao : DataArray f64 :=
  {| dims := ["time"; "lev"];
     values := Axis [Axis [Scalar f64_1_0]; Axis [Scalar S754_nan]] |}.

Definition ex_areacello : DataArray f64 :=
  {| dims := ["y"; "x"]; values := Axis [Axis [Scalar f64_75_0]] |}.

Definition ex_short : Dataset :=
  {["thetao" := ex_thetao; "areacello" := ex_areacello]}.

(** 361 time steps: a missing value followed by 360 ones. *)
Definition ex_series : DataArray f64 :=
  {| dims := ["time"];
     values := Axis (Scalar S754_nan :: repeat (Scalar f64_1_0) 360) |}.

Definition ex_series_tail : DataArray f64 :=
  {| dims := ["time"]; values := Axis (repeat (Scalar f64_1_0) 360) |}.

Definition ex_long : Dataset := {["thetao" := ex_series]}.

(** Stand-ins for the store opener and the merge, for runs of the
    loading loop on sample rows. *)
Definition ex_row (location : string) : row :=
  {| experiment_id := "historical"; table_id := "Omon"; variable_id := "zos";
     grid_label := "gn"; member_id := "r1i1p1f1"; source_id := "GFDL-ESM4";
     zstore := location |}.

Definition ex_open (s : store) (consolidated : option bool) : result Dataset :=
  match s with
  | GCSMap _ root =>
      if String.eqb root "gs://cmip6/zos" then Ok ex_ds
      else if String.eqb root "gs://cmip6/thetao" then Ok ex_short
      else Raise (LibraryError "no such store")
  | Url _ => Ok {["deptho" := ex_areacello]}
  end.

Definition ex_first (dss : list Dataset) : result Dataset :=
  match dss with
  | d :: _ => Ok d
  | [] => Raise ValueError
  end.

(** A series of three samples and one that starts with a missing value. *)
Definition ex_gauge : DataArray f64 :=
  {| dims := ["time"];
     values := Axis [Scalar f64_75_0; Scalar f64_1_0; Scalar S754_nan] |}.

Definition ex_gauge_gap : DataArray f64 :=
  {| dims := ["time"]; values := Axis [Scalar S754_nan; Scalar f64_1_0] |}.

(** The sample grid with its coordinates. *)
Definition ex_lon : DataArray f64 :=
  {| dims := ["y"; "x"]; values := Axis [Axis [Scalar f64_0_0; Scalar f64_1_0]] |}.

Definition ex_lat : DataArray f64 :=
  {| dims := ["y"; "x"]; values := Axis [Axis [Scalar f64_75_0; Scalar f64_75_0]] |}.

Definition ex_grid : Dataset :=
  {["zos" := ex_zos; "lon" := ex_lon; "lat" := ex_lat]}.

(** Stand-ins for the two [momlevel] routines, for sample runs. *)
Definition ex_extract (zos lon lat mask : DataArray f64) (threshold : f64)
    : result Dataset :=
  Ok {["NEW_YORK" := mask]}.

Definition ex_steric (ds : Dataset) (kwargs : list (string * pyobj))
    : result (list Dataset) :=
  Ok [ds].

(** The reading of the [momlevel.steric] call under which the notebook
    chooses the last 360 time steps and the name of the depth
    coordinate, and nothing more. *)
Definition steric_call_as_stated (ds : Dataset) : Prop :=
  exists window,
    steric_args ds = Ok (window, [("coord_names", StrDict [("z", "lev")])]) /\
    forall name, window !! name = on_time_axis (last_n 360) <$> ds !! name.

(** * Properties *)

(** ** Lists and arrays *)

Lemma comprehension_Forall2 {A B} (f : A -> result B) xs ys :
  comprehension f xs = Ok ys -> Forall2 (fun x y => f x = Ok y) xs ys.
Proof.
  revert ys. induction xs as [|x xs IH]; intros ys H; simpl in H.
  - inversion H; subst. constructor.
  - destruct (f x) as [y|] eqn:Hx; simpl in H; [|discriminate].
    destruct (comprehension f xs) as [ys'|] eqn:Hxs; simpl in H; [|discriminate].
    inversion H; subst. constructor; auto.
Qed.

Lemma getitem_0 {A} (l : list A) x : getitem 0 l = Ok x -> l !! 0%nat = Some x.
Proof.
  unfold getitem. simpl. change (Z.to_nat 0) with 0%nat.
  destruct (Z.of_nat (length l) <=? 0); [intros; discriminate|].
  destruct (l !! 0%nat); [|intros; discriminate]. congruence.
Qed.

Lemma cell_nd_map {A B} (f : A -> B) idx (a : ndarray A) :
  cell idx (nd_map f a) = option_map f (cell idx a).
Proof.
  revert a. induction idx as [|i idx IH]; intros [v|items]; simpl; try reflexivity.
  rewrite list_lookup_fmap. destruct (items !! i); simpl; auto.
Qed.

Lemma index_axis_cell {A} k (a b : ndarray A) :
  index_axis k 0 a = Ok b ->
  forall idx, cell idx b = cell (insert_at k 0 idx) a.
Proof.
  revert a b. induction k as [|k IH]; intros [v|items] b H idx;
    simpl in H; try discriminate.
  - apply getitem_0 in H. unfold insert_at. simpl. now rewrite H.
  - destruct (comprehension (index_axis k 0) items) as [items'|] eqn:Hc;
      simpl in H; [|discriminate].
    inversion H; subst; clear H.
    apply comprehension_Forall2 in Hc.
    destruct idx as [|i idx]; unfold insert_at; simpl.
    + destruct (items !! 0%nat) as [sub|] eqn:Hs; [|reflexivity].
      destruct (Forall2_lookup_l _ _ _ _ _ Hc Hs) as (y & _ & Hy).
      destruct sub; [destruct k; discriminate|reflexivity].
    + pose proof (proj1 (Forall2_lookup _ _ _) Hc i) as Hi.
      inversion Hi as [x y Hxy Hx Hy|Hx Hy]; [|reflexivity].
      apply (IH _ _ Hxy).
Qed.

(** ** The loading cells *)

Section Loading.

Variable open_zarr : store -> option bool -> result Dataset.
Variable merge : list Dataset -> result Dataset.

(** With no catalog row there is no store to open, and [xr.merge] is
    called on the empty list. *)
Lemma load_stores_no_rows : load_stores open_zarr merge [] = merge [].
Proof. reflexivity. Qed.

(** No cell catches an exception: what the loading raises is what the
    cell raises. *)
Lemma cell_12_propagates df e :
  load_stores open_zarr merge df = Raise e -> cell_12 open_zarr merge df = Raise e.
Proof. unfold cell_12. now intros ->. Qed.

Lemma cell_25_propagates df e :
  load_stores open_zarr merge df = Raise e -> cell_25 open_zarr merge df = Raise e.
Proof. unfold cell_25. now intros ->. Qed.

End Loading.

(** ** The wet mask *)

Lemma define_wet_inv (ds ds' : Dataset) :
  define_wet ds = Ok ds' ->
  exists zos k z0,
    ds !! "zos" = Some zos /\
    index_of "time" (dims zos) = Some k /\
    index_axis k 0 (values zos) = Ok z0 /\
    ds' = <["wet" := xr_where (da_isnull {| dims := drop_nth k (dims zos);
                                             values := z0 |}) f64_0_0 f64_1_0]> ds.
Proof.
  unfold define_wet, ds_getattr, da_isel_int. intros H.
  destruct (ds !! "zos") as [zos|] eqn:Hz; simpl in H; [|discriminate].
  destruct (index_of "time" (dims zos)) as [k|] eqn:Hk; simpl in H; [|discriminate].
  destruct (index_axis k 0 (values zos)) as [z0|] eqn:H0; simpl in H; [|discriminate].
  inversion H; subst. exists zos, k, z0. auto.
Qed.

Lemma wet_cell (z0 : ndarray f64) dims0 idx :
  cell idx (values (xr_where (da_isnull {| dims := dims0; values := z0 |})
                             f64_0_0 f64_1_0))
  = option_map wet_of (cell idx z0).
Proof.
  simpl. rewrite !cell_nd_map. destruct (cell idx z0); reflexivity.
Qed.

Lemma wet_of_cases z :
  (wet_of z = f64_0_0 /\ isnan z = true) \/ (wet_of z = f64_1_0 /\ isnan z = false).
Proof. unfold wet_of. destruct (isnan z); auto. Qed.

Lemma f64_0_0_ne_1_0 : f64_0_0 <> f64_1_0.
Proof. discriminate. Qed.

(** The mask is defined as soon as [zos] has [time] as its leading
    dimension and at least one time step. *)
Lemma define_wet_total (ds : Dataset) rest (z0 : ndarray f64) later :
  ds !! "zos" = Some {| dims := "time" :: rest; values := Axis (z0 :: later) |} ->
  define_wet ds
  = Ok (<["wet" := xr_where (da_isnull {| dims := rest; values := z0 |})
                            f64_0_0 f64_1_0]> ds).
Proof.
  intros H. unfold define_wet, ds_getattr. rewrite H. reflexivity.
Qed.

(** C10. The [wet] variable stored by cell 12 holds only 0.0 and 1.0,
    and its cells are read off the first time step of [zos]: a cell is
    0.0 exactly when [zos] at time index 0 is NaN there and 1.0 exactly
    when it is not, whatever [zos] holds there at another time index. *)
Theorem wet_mask_first_time_step (ds ds' : Dataset) :
  define_wet ds = Ok ds' ->
  exists zos k wet,
    ds !! "zos" = Some zos /\
    index_of "time" (dims zos) = Some k /\
    ds' !! "wet" = Some wet /\
    (forall idx v, cell idx (values wet) = Some v -> v = f64_0_0 \/ v = f64_1_0) /\
    (forall idx,
        cell idx (values wet) = Some f64_0_0 <->
        exists z, cell (insert_at k 0 idx) (values zos) = Some z /\ isnan z = true) /\
    (forall idx,
        cell idx (values wet) = Some f64_1_0 <->
        exists z, cell (insert_at k 0 idx) (values zos) = Some z /\ isnan z = false) /\
    (forall idx t z0 zt,
        cell (insert_at k 0 idx) (values zos) = Some z0 -> isnan z0 = false ->
        cell (insert_at k t idx) (values zos) = Some zt -> isnan zt = true ->
        cell idx (values wet) = Some f64_1_0).
Proof.
  intros H. apply define_wet_inv in H as (zos & k & z0 & Hz & Hk & H0 & ->).
  eexists zos, k, _. rewrite lookup_insert_eq.
  do 3 (split; [reflexivity || assumption|]).
  assert (Hcell : forall idx,
    cell idx (values (xr_where (da_isnull {| dims := drop_nth k (dims zos);
                                             values := z0 |}) f64_0_0 f64_1_0))
    = option_map wet_of (cell (insert_at k 0 idx) (values zos))).
  { intros idx. rewrite wet_cell. now rewrite (index_axis_cell _ _ _ H0). }
  repeat split.
  - intros idx v. rewrite Hcell.
    destruct (cell (insert_at k 0 idx) (values zos)) as [z|]; [|discriminate].
    simpl. intros [= <-]. destruct (wet_of_cases z) as [[-> _]|[-> _]]; auto.
  - rewrite Hcell.
    destruct (cell (insert_at k 0 idx) (values zos)) as [z|]; [|discriminate].
    simpl. intros [= Hw]. exists z. split; [reflexivity|].
    destruct (wet_of_cases z) as [[_ Hn]|[Hw' _]]; [assumption|].
    rewrite Hw' in Hw. now destruct f64_0_0_ne_1_0.
  - intros (z & Hz0 & Hn). rewrite Hcell, Hz0. simpl. unfold wet_of. now rewrite Hn.
  - rewrite Hcell.
    destruct (cell (insert_at k 0 idx) (values zos)) as [z|]; [|discriminate].
    simpl. intros [= Hw]. exists z. split; [reflexivity|].
    destruct (wet_of_cases z) as [[Hw' _]|[_ Hn]]; [|assumption].
    rewrite Hw' in Hw. now destruct f64_0_0_ne_1_0.
  - intros (z & Hz0 & Hn). rewrite Hcell, Hz0. simpl. unfold wet_of. now rewrite Hn.
  - intros idx t z1 zt Hz1 Hn1 _ _. rewrite Hcell, Hz1. simpl.
    unfold wet_of. now rewrite Hn1.
Qed.

Lemma wet_mask_first_time_step_witness :
  define_wet ex_ds = Ok (<["wet" := ex_wet]> ex_ds) /\
  exists zos k wet,
    ex_ds !! "zos" = Some zos /\
    index_of "time" (dims zos) = Some k /\
    (<["wet" := ex_wet]> ex_ds) !! "wet" = Some wet /\
    (forall idx v, cell idx (values wet) = Some v -> v = f64_0_0 \/ v = f64_1_0) /\
    (forall idx,
        cell idx (values wet) = Some f64_0_0 <->
        exists z, cell (insert_at k 0 idx) (values zos) = Some z /\ isnan z = true) /\
    (forall idx,
        cell idx (values wet) = Some f64_1_0 <->
        exists z, cell (insert_at k 0 idx) (values zos) = Some z /\ isnan z = false) /\
    (forall idx t z0 zt,
        cell (insert_at k 0 idx) (values zos) = Some z0 -> isnan z0 = false ->
        cell (insert_at k t idx) (values zos) = Some zt -> isnan zt = true ->
        cell idx (values wet) = Some f64_1_0).
Proof.
  split; [vm_compute; reflexivity|].
  apply (wet_mask_first_time_step ex_ds (<["wet" := ex_wet]> ex_ds)).
  vm_compute; reflexivity.
Defined.

(** ** The steric call *)

Lemma getslice_last {A} (n : nat) (l : list A) :
  (0 < n)%nat -> getslice (Some (- Z.of_nat n)) None l = last_n n l.
Proof.
  intros Hn. unfold getslice, slice_indices, adjust, last_n.
  destruct (Z.ltb_spec (- Z.of_nat n) 0) as [_|Hge]; [|lia].
  replace (Z.to_nat (Z.max 0 (- Z.of_nat n + Z.of_nat (length l))))
    with (length l - n)%nat by lia.
  apply firstn_all2. rewrite length_skipn. lia.
Qed.

Lemma last_n_length {A} (n : nat) (steps : list A) :
  length (last_n n steps) = Nat.min n (length steps).
Proof. unfold last_n. rewrite length_skipn. lia. Qed.

Lemma last_n_suffix {A} (n : nat) (steps : list A) :
  firstn (length steps - n) steps ++ last_n n steps = steps.
Proof. apply firstn_skipn. Qed.

Lemma at_depth_ext {A} (f g : list (ndarray A) -> list (ndarray A)) :
  (forall l, f l = g l) -> forall k a, at_depth k f a = at_depth k g a.
Proof.
  intros Hfg. induction k as [|k IH]; intros [v|items]; simpl; try reflexivity.
  - now rewrite Hfg.
  - f_equal. apply map_ext. exact IH.
Qed.

Lemma da_isel_slice_last {A} (da : DataArray A) :
  da_isel_slice "time" (Some (-360)) None da = on_time_axis (last_n 360) da.
Proof.
  unfold da_isel_slice, on_time_axis.
  destruct (index_of "time" (dims da)) as [k|]; [|reflexivity].
  f_equal. apply at_depth_ext. intros l.
  change (-360) with (- Z.of_nat 360). apply getslice_last. lia.
Qed.

Lemma steric_args_inv (ds window : Dataset) kw :
  steric_args ds = Ok (window, kw) ->
  has_dim "time" ds = true /\
  window = on_time_axis (last_n 360) <$> ds /\
  kw = steric_kwargs.
Proof.
  unfold steric_args, ds_isel_slice. intros H.
  destruct (has_dim "time" ds); simpl in H; [|discriminate].
  inversion H; subst. repeat split.
  apply map_fmap_ext. intros name da _. apply da_isel_slice_last.
Qed.

(** A dataset with a time dimension always yields a call. *)
Lemma steric_args_total (ds : Dataset) name da :
  ds !! name = Some da -> "time" ∈ dims da ->
  steric_args ds = Ok (on_time_axis (last_n 360) <$> ds, steric_kwargs).
Proof.
  intros Hda Ht. unfold steric_args, ds_isel_slice.
  replace (has_dim "time" ds) with true.
  - simpl. do 2 f_equal. apply map_fmap_ext. intros ? ? _. apply da_isel_slice_last.
  - symmetry. apply bool_decide_eq_true. exists name, da. auto.
Qed.

(** C9, as the notebook has it.  [momlevel.steric] receives the dataset
    with every variable that has a time axis cut to the last 360 entries
    of that axis (all of them when there are fewer than 360) and every
    other variable as it is; the keyword arguments are [domain="global"]
    and [coord_names={"z": "lev"}], in that order and no others.  The
    entries before the window are the ones left out. *)
Theorem steric_window_and_options (ds window : Dataset) kw :
  steric_args ds = Ok (window, kw) ->
  (forall name, window !! name = on_time_axis (last_n 360) <$> ds !! name) /\
  kw = [("domain", Str "global"); ("coord_names", StrDict [("z", "lev")])] /\
  (forall steps : list (ndarray f64),
      length (last_n 360 steps) = Nat.min 360 (length steps) /\
      firstn (length steps - 360) steps ++ last_n 360 steps = steps).
Proof.
  intros H. apply steric_args_inv in H as (_ & -> & ->).
  split; [|split].
  - intros name. apply lookup_fmap.
  - reflexivity.
  - intros steps. split; [apply last_n_length|apply last_n_suffix].
Qed.

Lemma steric_window_and_options_witness :
  steric_args ex_short
  = Ok ({["thetao" := ex_thetao; "areacello" := ex_areacello]}, steric_kwargs) /\
  ((forall name,
       ({["thetao" := ex_thetao; "areacello" := ex_areacello]} : Dataset) !! name
       = on_time_axis (last_n 360) <$> ex_short !! name) /\
   steric_kwargs
   = [("domain", Str "global"); ("coord_names", StrDict [("z", "lev")])] /\
   (forall steps : list (ndarray f64),
       length (last_n 360 steps) = Nat.min 360 (length steps) /\
       firstn (length steps - 360) steps ++ last_n 360 steps = steps)).
Proof.
  split; [vm_compute; reflexivity|].
  apply (steric_window_and_options ex_short).
  vm_compute; reflexivity.
Defined.

(** C9, as the specification words it, fails: on a dataset of 361 time
    steps the call is made on the last 360 of them, and its keyword
    arguments also fix [domain="global"]. *)
Lemma steric_call_fixes_domain :
  steric_args ex_long = Ok ({["thetao" := ex_series_tail]}, steric_kwargs) /\
  ~ steric_call_as_stated ex_long.
Proof.
  split; [vm_compute; reflexivity|].
  intros (window & H & _).
  apply steric_args_inv in H as (_ & _ & Hkw). discriminate Hkw.
Qed.

(** ** The mask reaches the tide-gauge extraction *)

(** Cell 16 hands [momlevel.extract_tidegauge] the [wet] variable that
    cell 12 stored, next to [zos], [lon], [lat] and the threshold 75.0. *)
Lemma cell_16_passes_wet
    (extract_tidegauge :
       DataArray f64 -> DataArray f64 -> DataArray f64 -> DataArray f64 -> f64 ->
       result Dataset)
    (ds ds' : Dataset) zos lon lat wet :
  define_wet ds = Ok ds' ->
  ds !! "zos" = Some zos -> ds !! "lon" = Some lon -> ds !! "lat" = Some lat ->
  ds' !! "wet" = Some wet ->
  cell_16 extract_tidegauge ds' = extract_tidegauge zos lon lat wet f64_75_0.
Proof.
  intros H Hz Hlon Hlat Hw.
  apply define_wet_inv in H as (zos' & k & z0 & _ & _ & _ & ->).
  unfold cell_16, ds_getattr. rewrite Hw.
  rewrite !lookup_insert_ne by discriminate.
  now rewrite Hz, Hlon, Hlat.
Qed.

(** * Further properties of the cells *)

(** ** The loading loop *)

Lemma Forall2_comprehension {A B} (f : A -> result B) xs ys :
  Forall2 (fun x y => f x = Ok y) xs ys -> comprehension f xs = Ok ys.
Proof.
  induction 1 as [|x y xs ys Hx _ IH]; simpl; [reflexivity|].
  now rewrite Hx, IH.
Qed.

Lemma comprehension_first_failure {A B} (f : A -> result B) pre ys x post e :
  Forall2 (fun x y => f x = Ok y) pre ys -> f x = Raise e ->
  comprehension f (pre ++ x :: post) = Raise e.
Proof.
  intros Hpre Hx. induction Hpre as [|x' y' xs' ys' Hx' _ IH]; simpl.
  - now rewrite Hx.
  - now rewrite Hx', IH.
Qed.

Lemma comprehension_Raise_inv {A B} (f : A -> result B) xs e :
  comprehension f xs = Raise e ->
  exists pre x post ys,
    xs = pre ++ x :: post /\ Forall2 (fun x y => f x = Ok y) pre ys /\
    f x = Raise e.
Proof.
  induction xs as [|x xs IH]; simpl; intros H; [discriminate|].
  destruct (f x) as [y|e'] eqn:Hx; simpl in H.
  - destruct (comprehension f xs) as [ys|e''] eqn:Hxs; simpl in H; [discriminate|].
    inversion H; subst.
    destruct (IH eq_refl) as (pre & x' & post & ys & -> & Hpre & Hx').
    exists (x :: pre), x', post, (y :: ys). repeat split; auto.
  - inversion H; subst. exists [], x, xs, []. repeat split; auto.
Qed.

Lemma load_stores_unfold open_zarr merge df :
  load_stores open_zarr merge df
  = let* ds := comprehension (fun r => open_zarr (mapper_of r) (Some true)) df in
    merge ds.
Proof.
  unfold load_stores. f_equal.
  induction df as [|r df IH]; simpl; [reflexivity|]. now rewrite <- IH.
Qed.

(** X1. When every store opens, [xr.merge] receives the opened
    datasets, one per catalog row and in the order of the rows, each
    opened through an anonymous read-only mapper with consolidated
    metadata; the result of the loading is the result of that merge. *)
Theorem load_stores_opens_rows_in_order open_zarr merge df dss :
  Forall2 (fun r d => open_zarr (mapper_of r) (Some true) = Ok d) df dss ->
  load_stores open_zarr merge df = merge dss /\ length dss = length df.
Proof.
  intros H. split.
  - rewrite load_stores_unfold.
    now rewrite (Forall2_comprehension _ _ _ H).
  - symmetry. exact (Forall2_length _ _ _ H).
Qed.

Lemma load_stores_opens_rows_in_order_witness :
  Forall2 (fun r d => ex_open (mapper_of r) (Some true) = Ok d)
    [ex_row "gs://cmip6/zos"; ex_row "gs://cmip6/thetao"] [ex_ds; ex_short] /\
  (load_stores ex_open ex_first [ex_row "gs://cmip6/zos"; ex_row "gs://cmip6/thetao"]
   = ex_first [ex_ds; ex_short] /\
   length [ex_ds; ex_short]
   = length [ex_row "gs://cmip6/zos"; ex_row "gs://cmip6/thetao"]).
Proof.
  assert (H : Forall2 (fun r d => ex_open (mapper_of r) (Some true) = Ok d)
                [ex_row "gs://cmip6/zos"; ex_row "gs://cmip6/thetao"]
                [ex_ds; ex_short]).
  { repeat constructor. }
  split; [exact H|].
  exact (load_stores_opens_rows_in_order ex_open ex_first _ _ H).
Defined.

(** X2. The loading raises [e] exactly when the first store that fails
    to open raises [e] (the stores after it and the merge play no part),
    or every store opens and the merge of the opened datasets raises
    [e]. *)
Theorem load_stores_raises_iff open_zarr merge df e :
  load_stores open_zarr merge df = Raise e <->
  (exists pre r post dss,
      df = pre ++ r :: post /\
      Forall2 (fun r d => open_zarr (mapper_of r) (Some true) = Ok d) pre dss /\
      open_zarr (mapper_of r) (Some true) = Raise e) \/
  (exists dss,
      Forall2 (fun r d => open_zarr (mapper_of r) (Some true) = Ok d) df dss /\
      merge dss = Raise e).
Proof.
  rewrite load_stores_unfold. split.
  - destruct (comprehension _ df) as [dss|e'] eqn:Hc; simpl; intros H.
    + right. exists dss. split; [|exact H]. now apply comprehension_Forall2.
    + inversion H; subst. left.
      apply comprehension_Raise_inv in Hc as (pre & r & post & dss & -> & Hp & Hr).
      exists pre, r, post, dss. auto.
  - intros [(pre & r & post & dss & -> & Hp & Hr)|(dss & Hd & Hm)].
    + now rewrite (comprehension_first_failure _ _ _ _ _ _ Hp Hr).
    + now rewrite (Forall2_comprehension _ _ _ Hd).
Qed.

(** ** The wet mask, beyond its cells *)

Lemma index_of_None d l : index_of d l = None <-> d ∉ l.
Proof.
  induction l as [|d' l IH]; simpl.
  - split; [intros _; apply not_elem_of_nil|reflexivity].
  - destruct (String.eqb_spec d d') as [->|Hne].
    + split; [discriminate|]. intros H. destruct H. left.
    + rewrite not_elem_of_cons. destruct (index_of d l); simpl.
      * split; [discriminate|]. intros [_ H]. now apply IH in H.
      * split; [|reflexivity]. intros _. split; [exact Hne|]. now apply IH.
Qed.

Lemma index_of_Some_split d l k :
  index_of d l = Some k ->
  exists before after,
    l = before ++ d :: after /\ (d ∉ before) /\ length before = k /\
    drop_nth k l = before ++ after.
Proof.
  revert k. induction l as [|d' l IH]; simpl; intros k H; [discriminate|].
  destruct (String.eqb_spec d d') as [->|Hne].
  - inversion H; subst. exists [], l. repeat split. apply not_elem_of_nil.
  - destruct (index_of d l) as [k'|]; simpl in H; [|discriminate].
    inversion H; subst.
    destruct (IH k' eq_refl) as (before & after & -> & Hn & Hl & Hd).
    exists (d' :: before), after. simpl. repeat split.
    + rewrite not_elem_of_cons. auto.
    + now rewrite Hl.
    + now rewrite Hd.
Qed.



(** X3. Cell 12 only adds [wet]: every other variable of the merged
    dataset is found unchanged afterwards, and the names of the result
    are those of the input together with [wet]. *)
Theorem define_wet_frame (ds ds' : Dataset) :
  define_wet ds = Ok ds' ->
  (forall name, name <> "wet" -> ds' !! name = ds !! name) /\
  dom ds' = {["wet"]} ∪ dom ds.
Proof.
  intros H. apply define_wet_inv in H as (zos & k & z0 & _ & _ & _ & ->).
  split.
  - intros name Hne. now rewrite lookup_insert_ne.
  - apply dom_insert_L.
Qed.

Lemma define_wet_frame_witness :
  define_wet ex_ds = Ok (<["wet" := ex_wet]> ex_ds) /\
  ((forall name, name <> "wet" -> (<["wet" := ex_wet]> ex_ds) !! name = ex_ds !! name) /\
   dom (<["wet" := ex_wet]> ex_ds) = {["wet"]} ∪ dom ex_ds).
Proof.
  split; [vm_compute; reflexivity|].
  apply (define_wet_frame ex_ds). vm_compute; reflexivity.
Defined.

(** X4. Running the mask statement again changes nothing: the mask is
    computed from [zos], which the statement does not touch, and the
    second assignment overwrites [wet] with the same array. *)
Theorem define_wet_idempotent (ds ds' : Dataset) :
  define_wet ds = Ok ds' -> define_wet ds' = Ok ds'.
Proof.
  intros H. apply define_wet_inv in H as (zos & k & z0 & Hz & Hk & H0 & ->).
  unfold define_wet, ds_getattr, da_isel_int.
  rewrite lookup_insert_ne by discriminate.
  rewrite Hz. simpl. rewrite Hk. simpl. rewrite H0. simpl.
  now rewrite insert_insert_eq.
Qed.

Lemma define_wet_idempotent_witness :
  define_wet ex_ds = Ok (<["wet" := ex_wet]> ex_ds) /\
  define_wet (<["wet" := ex_wet]> ex_ds) = Ok (<["wet" := ex_wet]> ex_ds).
Proof.
  split; [vm_compute; reflexivity|].
  apply (define_wet_idempotent ex_ds). vm_compute; reflexivity.
Defined.



(** X6. The mask has the dimensions of [zos] without [time], in the
    order [zos] has them: [time] is cut out at its first place. *)
Theorem define_wet_dims (ds ds' : Dataset) zos :
  define_wet ds = Ok ds' -> ds !! "zos" = Some zos ->
  exists wet before after,
    ds' !! "wet" = Some wet /\
    dims zos = before ++ "time" :: after /\
    dims wet = before ++ after /\
    "time" ∉ before.
Proof.
  intros H Hz. apply define_wet_inv in H as (zos' & k & z0 & Hz' & Hk & _ & ->).
  rewrite Hz in Hz'. inversion Hz'; subst zos'.
  apply index_of_Some_split in Hk as (before & after & Hd & Hn & _ & Hdrop).
  eexists _, before, after. rewrite lookup_insert_eq.
  split; [reflexivity|]. simpl. auto.
Qed.

Lemma define_wet_dims_witness :
  define_wet ex_ds = Ok (<["wet" := ex_wet]> ex_ds) /\
  ex_ds !! "zos" = Some ex_zos /\
  exists wet before after,
    (<["wet" := ex_wet]> ex_ds) !! "wet" = Some wet /\
    dims ex_zos = before ++ "time" :: after /\
    dims wet = before ++ after /\
    "time" ∉ before.
Proof.
  split; [vm_compute; reflexivity|]. split; [vm_compute; reflexivity|].
  apply (define_wet_dims ex_ds); vm_compute; reflexivity.
Defined.

(** ** The last time step *)

Lemma getitem_minus_1 {A} (l : list A) :
  getitem (-1) l = match last l with
                   | Some z => Ok z
                   | None => Raise IndexError
                   end.
Proof.
  unfold getitem. rewrite last_lookup.
  change (-1 <? 0) with true. cbv iota.
  destruct l as [|x l]; [reflexivity|].
  replace ((-1 + Z.of_nat (length (x :: l)) <? 0)
           || (Z.of_nat (length (x :: l)) <=? -1 + Z.of_nat (length (x :: l))))
    with false.
  - replace (Z.to_nat (-1 + Z.of_nat (length (x :: l))))
      with (Init.Nat.pred (length (x :: l))) by (simpl length; lia).
    destruct ((x :: l) !! Init.Nat.pred (length (x :: l))) eqn:E; [reflexivity|].
    apply lookup_ge_None in E. simpl in E. lia.
  - symmetry. apply orb_false_iff. split; [apply Z.ltb_ge|apply Z.leb_gt];
      simpl length; lia.
Qed.

(** X7. With [time] as the leading dimension of [zos], the field drawn
    in cell 13 is the last time step, over the remaining dimensions;
    with no time step at all the selection raises [IndexError]. *)
Theorem cell_13_field_is_last_step (ds : Dataset) rest steps :
  ds !! "zos" = Some {| dims := "time" :: rest; values := Axis steps |} ->
  cell_13_field ds = match last steps with
                     | Some z => Ok {| dims := rest; values := z |}
                     | None => Raise IndexError
                     end.
Proof.
  intros H. unfold cell_13_field, ds_getattr, da_isel_int. rewrite H. simpl.
  rewrite getitem_minus_1. destruct (last steps); reflexivity.
Qed.

Lemma cell_13_field_is_last_step_witness :
  ex_ds !! "zos"
  = Some {| dims := "time" :: ["y"; "x"];
            values := Axis [Axis [Axis [Scalar S754_nan; Scalar f64_1_0]];
                            Axis [Axis [Scalar S754_nan; Scalar S754_nan]]] |} /\
  cell_13_field ex_ds
  = match last [Axis [Axis [Scalar S754_nan; Scalar f64_1_0]];
                Axis [Axis [Scalar S754_nan; Scalar S754_nan]]] with
    | Some z => Ok {| dims := ["y"; "x"]; values := z |}
    | None => Raise IndexError
    end.
Proof.
  split; [vm_compute; reflexivity|].
  apply (cell_13_field_is_last_step ex_ds). vm_compute; reflexivity.
Defined.

(** ** The anomaly series *)

Lemma zip_result_lookup {A B C} (g : A -> B -> result C) xs ys zs :
  zip_result g xs ys = Ok zs ->
  forall i,
    match xs !! i, ys !! i, zs !! i with
    | Some x, Some y, Some z => g x y = Ok z
    | None, None, None => True
    | _, _, _ => False
    end.
Proof.
  revert ys zs. induction xs as [|x xs IH]; intros [|y ys] zs H; simpl in H;
    try discriminate.
  - inversion H; subst. intros i. now destruct i.
  - destruct (g x y) as [z|] eqn:Hg; simpl in H; [|discriminate].
    destruct (zip_result g xs ys) as [zs'|] eqn:Hz; simpl in H; [|discriminate].
    inversion H; subst. intros [|i]; simpl; [exact Hg|]. exact (IH _ _ Hz i).
Qed.

Lemma nd_zip_cell {A B C} (f : A -> B -> C) idx :
  forall a b c, nd_zip f a b = Ok c ->
  cell idx c = zip_cells f (cell idx a) (cell idx b) /\
  (cell idx a = None <-> cell idx b = None).
Proof.
  induction idx as [|i idx IH]; intros [x|xs] [y|ys] c H; simpl in H;
    try discriminate.
  - inversion H; subst. simpl. split; [reflexivity|]. split; discriminate.
  - destruct (zip_result (nd_zip f) xs ys); simpl in H; [|discriminate].
    inversion H; subst. simpl. tauto.
  - inversion H; subst. simpl. tauto.
  - destruct (zip_result (nd_zip f) xs ys) as [zs|] eqn:Hz; simpl in H;
      [|discriminate].
    inversion H; subst. simpl.
    pose proof (zip_result_lookup _ _ _ _ Hz i) as Hi.
    destruct (xs !! i) as [x|], (ys !! i) as [y|], (zs !! i) as [z|];
      try contradiction; [exact (IH _ _ _ Hi)|tauto].
Qed.

Lemma anomaly_inv prec emax data r :
  anomaly prec emax data = Ok r ->
  exists items first items',
    values data = Axis items /\ items !! 0%nat = Some first /\
    Forall2 (fun it it' => nd_zip (SFsub prec emax) it first = Ok it') items items' /\
    r = {| dims := dims data; values := Axis items' |}.
Proof.
  unfold anomaly, da_getitem, da_sub_each. intros H.
  destruct (values data) as [v|items] eqn:Hv; simpl in H; [discriminate|].
  destruct (getitem 0 items) as [first|] eqn:Hf; simpl in H; [|discriminate].
  destruct (comprehension (fun it => nd_zip (SFsub prec emax) it first) items)
    as [items'|] eqn:Hc; simpl in H; [|discriminate].
  inversion H; subst. exists items, first, items'.
  split; [reflexivity|]. split; [now apply getitem_0|]. split; [|reflexivity].
  now apply comprehension_Forall2 in Hc.
Qed.

Lemma anomaly_cell prec emax data r :
  anomaly prec emax data = Ok r ->
  forall t idx,
    cell (t :: idx) (values r)
    = zip_cells (SFsub prec emax) (cell (t :: idx) (values data))
                (cell (0%nat :: idx) (values data)) /\
    (cell (t :: idx) (values data) <> None ->
     cell (0%nat :: idx) (values data) <> None).
Proof.
  intros H. apply anomaly_inv in H as (items & first & items' & Hv & Hf & Hall & ->).
  intros t idx. rewrite Hv. cbn [cell values]. unfold f64 in *. rewrite Hf.
  pose proof (proj1 (Forall2_lookup _ _ _) Hall t) as Ht.
  inversion Ht as [it it' Hz Hx Hy|Hx Hy]; [|split; [reflexivity|congruence]].
  destruct (nd_zip_cell _ idx _ _ _ Hz) as [Hc Hn]. split; [exact Hc|tauto].
Qed.

Lemma SFsub_diag prec emax x :
  SFsub prec emax x x = if is_number x then S754_zero false else S754_nan.
Proof.
  destruct x as [[|]|[|]| |s m e]; simpl; try reflexivity.
  now rewrite Z.sub_diag.
Qed.

Lemma SFsub_nan_r prec emax x : SFsub prec emax x S754_nan = S754_nan.
Proof. destruct x; reflexivity. Qed.

(** X8. The anomaly starts at zero: at its first entry a cell holds
    +0.0 where the series holds a number there, and NaN where it holds
    NaN or an infinity, in any binary float format. *)
Theorem anomaly_first_entry prec emax data r idx x0 :
  anomaly prec emax data = Ok r ->
  cell (0%nat :: idx) (values data) = Some x0 ->
  cell (0%nat :: idx) (values r)
  = Some (if is_number x0 then S754_zero false else S754_nan).
Proof.
  intros H Hx. destruct (anomaly_cell _ _ _ _ H 0%nat idx) as [-> _].
  rewrite Hx. simpl. now rewrite SFsub_diag.
Qed.

Lemma anomaly_first_entry_witness :
  anomaly 53 1024 ex_gauge
  = Ok {| dims := ["time"];
          values := Axis [Scalar f64_0_0;
                          Scalar (SFsub 53 1024 f64_1_0 f64_75_0);
                          Scalar S754_nan] |} /\
  cell [0%nat] (values ex_gauge) = Some f64_75_0 /\
  cell [0%nat]
    (values {| dims := ["time"];
               values := Axis [Scalar f64_0_0;
                               Scalar (SFsub 53 1024 f64_1_0 f64_75_0);
                               Scalar S754_nan] |})
  = Some (if is_number f64_75_0 then S754_zero false else S754_nan).
Proof.
  split; [vm_compute; reflexivity|]. split; [reflexivity|].
  apply (anomaly_first_entry 53 1024 ex_gauge); vm_compute; reflexivity.
Defined.

(** X9. A missing first sample blanks the whole series: where the
    first entry of the series is NaN, the anomaly is NaN at every entry
    the series has there. *)
Theorem anomaly_missing_first prec emax data r idx :
  anomaly prec emax data = Ok r ->
  cell (0%nat :: idx) (values data) = Some S754_nan ->
  forall t x,
    cell (t :: idx) (values data) = Some x ->
    cell (t :: idx) (values r) = Some S754_nan.
Proof.
  intros H H0 t x Hx. destruct (anomaly_cell _ _ _ _ H t idx) as [-> _].
  rewrite Hx, H0. simpl. now rewrite SFsub_nan_r.
Qed.

Lemma anomaly_missing_first_witness :
  anomaly 53 1024 ex_gauge_gap
  = Ok {| dims := ["time"]; values := Axis [Scalar S754_nan; Scalar S754_nan] |} /\
  cell [0%nat] (values ex_gauge_gap) = Some S754_nan /\
  forall t x,
    cell [t] (values ex_gauge_gap) = Some x ->
    cell [t] (values {| dims := ["time"];
                        values := Axis [Scalar S754_nan; Scalar S754_nan] |})
    = Some S754_nan.
Proof.
  split; [vm_compute; reflexivity|]. split; [reflexivity|].
  apply (anomaly_missing_first 53 1024 ex_gauge_gap); vm_compute; reflexivity.
Defined.

(** X10. The anomaly has the dimensions of the series and a cell
    exactly where the series has one, each holding the sample there
    minus the first sample of that place. *)
Theorem anomaly_shape prec emax data r :
  anomaly prec emax data = Ok r ->
  dims r = dims data /\
  forall t idx x,
    cell (t :: idx) (values data) = Some x ->
    exists x0,
      cell (0%nat :: idx) (values data) = Some x0 /\
      cell (t :: idx) (values r) = Some (SFsub prec emax x x0).
Proof.
  intros H. split.
  - apply anomaly_inv in H as (? & ? & ? & _ & _ & _ & ->). reflexivity.
  - intros t idx x Hx. destruct (anomaly_cell _ _ _ _ H t idx) as [-> Hn].
    destruct (cell (0%nat :: idx) (values data)) as [x0|] eqn:H0.
    + exists x0. rewrite Hx. auto.
    + destruct Hn; [congruence|reflexivity].
Qed.

Lemma anomaly_shape_witness :
  anomaly 53 1024 ex_gauge_gap
  = Ok {| dims := ["time"]; values := Axis [Scalar S754_nan; Scalar S754_nan] |} /\
  dims {| dims := ["time"]; values := Axis [Scalar S754_nan; Scalar S754_nan] |}
  = dims ex_gauge_gap /\
  forall t idx x,
    cell (t :: idx) (values ex_gauge_gap) = Some x ->
    exists x0,
      cell (0%nat :: idx) (values ex_gauge_gap) = Some x0 /\
      cell (t :: idx)
        (values {| dims := ["time"];
                   values := Axis [Scalar S754_nan; Scalar S754_nan] |})
      = Some (SFsub 53 1024 x x0).
Proof.
  split; [vm_compute; reflexivity|].
  apply (anomaly_shape 53 1024 ex_gauge_gap). vm_compute; reflexivity.
Defined.

(** X11. For a series of one dimension the anomaly is each sample minus
    the first, entry by entry; on a series with no sample the statement
    raises [IndexError], and cell 17 stops there whatever the averaging
    routine is. *)
Theorem anomaly_of_series prec emax d xs
    (annual_average : DataArray f64 -> result (DataArray f64)) :
  anomaly prec emax {| dims := d; values := Axis (map Scalar xs) |}
  = match xs with
    | [] => Raise IndexError
    | x0 :: _ =>
        Ok {| dims := d;
              values := Axis (map (fun x => Scalar (SFsub prec emax x x0)) xs) |}
    end /\
  cell_17_series annual_average prec emax {| dims := d; values := Axis [] |}
  = Raise IndexError.
Proof.
  split; [|reflexivity].
  destruct xs as [|x0 xs]; [reflexivity|].
  unfold anomaly, da_getitem, da_sub_each.
  change (index_axis 0 0 (values {| dims := d; values := Axis (map Scalar (x0 :: xs)) |}))
    with (getitem 0 (Scalar x0 :: map Scalar xs)).
  change (getitem 0 (Scalar x0 :: map Scalar xs)) with (Ok (Scalar x0)).
  cbn [bind values dims].
  rewrite (Forall2_comprehension _ (map Scalar (x0 :: xs))
             (map (fun x => Scalar (SFsub prec emax x x0)) (x0 :: xs))).
  - reflexivity.
  - generalize (x0 :: xs). intros l. induction l; simpl; constructor; auto.
Qed.

(** ** The steric cells *)

Lemma on_time_axis_dims {A} f (da : DataArray A) :
  dims (on_time_axis f da) = dims da.
Proof. unfold on_time_axis. now destruct (index_of "time" (dims da)). Qed.

Lemma on_time_axis_static {A} f (da : DataArray A) :
  "time" ∉ dims da -> on_time_axis f da = da.
Proof.
  intros H. apply index_of_None in H. unfold on_time_axis. now rewrite H.
Qed.

(** X12. The window selection keeps the variables and their
    dimensions: the dataset handed to [momlevel.steric] has the names
    of the notebook's dataset, each variable has its dimensions, and a
    variable without a [time] dimension is handed over as it is. *)
Theorem steric_window_keeps_variables (ds window : Dataset) kw :
  steric_args ds = Ok (window, kw) ->
  dom window = dom ds /\
  forall name da,
    ds !! name = Some da ->
    exists da',
      window !! name = Some da' /\ dims da' = dims da /\
      ("time" ∉ dims da -> da' = da).
Proof.
  intros H. apply steric_args_inv in H as (_ & -> & _). split.
  - apply dom_fmap_L.
  - intros name da Hda. exists (on_time_axis (last_n 360) da).
    rewrite lookup_fmap, Hda. split; [reflexivity|].
    split; [apply on_time_axis_dims|apply on_time_axis_static].
Qed.

Lemma steric_window_keeps_variables_witness :
  steric_args ex_short
  = Ok ({["thetao" := ex_thetao; "areacello" := ex_areacello]}, steric_kwargs) /\
  (dom ({["thetao" := ex_thetao; "areacello" := ex_areacello]} : Dataset)
   = dom ex_short /\
   forall name da,
     ex_short !! name = Some da ->
     exists da',
       ({["thetao" := ex_thetao; "areacello" := ex_areacello]} : Dataset) !! name
       = Some da' /\
       dims da' = dims da /\ ("time" ∉ dims da -> da' = da)).
Proof.
  split; [vm_compute; reflexivity|].
  apply (steric_window_keeps_variables ex_short _ steric_kwargs).
  vm_compute; reflexivity.
Defined.






(** X15. On a dataset none of whose variables has a [time] dimension,
    cell 26 raises [ValueError] at the window selection: the outcome is
    the same for every [momlevel.steric]. *)
Theorem cell_26_without_time
    (steric : Dataset -> list (string * pyobj) -> result (list Dataset))
    (ds : Dataset) :
  (forall name da, ds !! name = Some da -> "time" ∉ dims da) ->
  cell_26 steric ds = Raise ValueError.
Proof.
  intros H. unfold cell_26, steric_args, ds_isel_slice.
  replace (has_dim "time" ds) with false; [reflexivity|].
  symmetry. apply bool_decide_eq_false. intros (name & da & Hda & Ht).
  exact (H name da Hda Ht).
Qed.

Lemma cell_26_without_time_witness :
  (forall name da,
      ({["areacello" := ex_areacello]} : Dataset) !! name = Some da ->
      "time" ∉ dims da) /\
  cell_26 ex_steric {["areacello" := ex_areacello]} = Raise ValueError.
Proof.
  assert (H : forall name da,
             ({["areacello" := ex_areacello]} : Dataset) !! name = Some da ->
             "time" ∉ dims da).
  { intros name da Hda. apply lookup_singleton_Some in Hda as [_ <-].
    apply index_of_None. reflexivity. }
  split; [exact H|].
  exact (cell_26_without_time ex_steric _ H).
Defined.

(** ** The tide-gauge and global-mean cells *)

(** X16. Cell 16 reads [zos], [lon], [lat] and [wet] before it calls
    the extraction: with any of them missing it raises
    [AttributeError], the same for every [momlevel.extract_tidegauge]. *)
Theorem cell_16_missing_variable
    (extract_tidegauge :
       DataArray f64 -> DataArray f64 -> DataArray f64 -> DataArray f64 -> f64 ->
       result Dataset)
    (ds : Dataset) :
  ds !! "zos" = None \/ ds !! "lon" = None \/ ds !! "lat" = None \/
  ds !! "wet" = None ->
  cell_16 extract_tidegauge ds = Raise AttributeError.
Proof.
  unfold cell_16, ds_getattr. intros H.
  destruct (ds !! "zos"); simpl; [|reflexivity].
  destruct (ds !! "lon"); simpl; [|reflexivity].
  destruct (ds !! "lat"); simpl; [|reflexivity].
  destruct (ds !! "wet"); simpl; [|reflexivity].
  destruct H as [H|[H|[H|H]]]; discriminate.
Qed.

Lemma cell_16_missing_variable_witness :
  (ex_grid !! "zos" = None \/ ex_grid !! "lon" = None \/ ex_grid !! "lat" = None \/
   ex_grid !! "wet" = None) /\
  cell_16 ex_extract ex_grid = Raise AttributeError.
Proof.
  assert (H : ex_grid !! "zos" = None \/ ex_grid !! "lon" = None \/
              ex_grid !! "lat" = None \/ ex_grid !! "wet" = None).
  { right. right. right. vm_compute; reflexivity. }
  split; [exact H|].
  exact (cell_16_missing_variable ex_extract ex_grid H).
Defined.

(** X17. Cell 19 reads [zos] and [areacello] before any reduction:
    with either missing it raises [AttributeError], the same for every
    weighted mean and every averaging routine. *)
Theorem cell_19_missing_variable
    (weighted_mean :
       DataArray f64 -> DataArray f64 -> list string -> result (DataArray f64))
    (annual_average : DataArray f64 -> result (DataArray f64))
    (ds : Dataset) :
  ds !! "zos" = None \/ ds !! "areacello" = None ->
  cell_19 weighted_mean annual_average ds = Raise AttributeError.
Proof.
  unfold cell_19, ds_getattr. intros H.
  destruct (ds !! "zos"); simpl; [|reflexivity].
  destruct (ds !! "areacello"); simpl; [|reflexivity].
  destruct H as [H|H]; discriminate.
Qed.

Lemma cell_19_missing_variable_witness :
  (ex_short !! "zos" = None \/ ex_short !! "areacello" = None) /\
  cell_19 (fun zos _ _ => Ok zos) (fun monthly => Ok monthly) ex_short
  = Raise AttributeError.
Proof.
  assert (H : ex_short !! "zos" = None \/ ex_short !! "areacello" = None).
  { left. vm_compute; reflexivity. }
  split; [exact H|].
  exact (cell_19_missing_variable _ _ ex_short H).
Defined.

(** X18. From cell 12 to cell 16: on the dataset cell 12 leaves, with
    [lon] and [lat] in it, the extraction is called with [zos], [lon],
    [lat], the mask of the first time step and the threshold 75.0. *)
Theorem cell_16_after_define_wet
    (extract_tidegauge :
       DataArray f64 -> DataArray f64 -> DataArray f64 -> DataArray f64 -> f64 ->
       result Dataset)
    (ds ds' : Dataset) lon lat :
  define_wet ds = Ok ds' ->
  ds !! "lon" = Some lon -> ds !! "lat" = Some lat ->
  exists zos zos0,
    ds !! "zos" = Some zos /\
    da_isel_int "time" 0 zos = Ok zos0 /\
    cell_16 extract_tidegauge ds'
    = extract_tidegauge zos lon lat
        (xr_where (da_isnull zos0) f64_0_0 f64_1_0) f64_75_0.
Proof.
  intros H Hlon Hlat.
  apply define_wet_inv in H as (zos & k & z0 & Hz & Hk & H0 & ->).
  exists zos, {| dims := drop_nth k (dims zos); values := z0 |}.
  split; [exact Hz|]. split.
  - unfold da_isel_int. rewrite Hk. simpl. now rewrite H0.
  - unfold cell_16, ds_getattr. rewrite lookup_insert_eq.
    rewrite !lookup_insert_ne by discriminate.
    now rewrite Hz, Hlon, Hlat.
Qed.

Lemma cell_16_after_define_wet_witness :
  define_wet ex_grid = Ok (<["wet" := ex_wet]> ex_grid) /\
  ex_grid !! "lon" = Some ex_lon /\ ex_grid !! "lat" = Some ex_lat /\
  exists zos zos0,
    ex_grid !! "zos" = Some zos /\
    da_isel_int "time" 0 zos = Ok zos0 /\
    cell_16 ex_extract (<["wet" := ex_wet]> ex_grid)
    = ex_extract zos ex_lon ex_lat
        (xr_where (da_isnull zos0) f64_0_0 f64_1_0) f64_75_0.
Proof.
  split; [vm_compute; reflexivity|].
  split; [vm_compute; reflexivity|]. split; [vm_compute; reflexivity|].
  apply (cell_16_after_define_wet ex_extract ex_grid); vm_compute; reflexivity.
Defined.
